(** * Exception middleware of globus_portal_framework

    A shallow embedding of [globus_portal_framework/middleware.py]:
    [ExpiredTokenMiddleware.process_exception] and
    [GlobusAuthExceptionMiddleware.process_exception], together with the
    parts of Python and of the standard library they call
    ([str.format], [str.join], [dict.get], truthiness, subscripting,
    [urllib.parse.urlencode]).

    Strings are Rocq [string]s: the UTF-8 bytes of the Python [str].
    That is the level at which [urllib.parse.quote] works. *)

From Stdlib Require Import String Ascii List ZArith NArith Bool Lia.
From stdpp Require Import base option list strings gmap pretty.

Local Open Scope string_scope.
Local Open Scope list_scope.

(** ** Python values *)

(** The values that can reach the middleware through an exception payload
    or a settings attribute.  Dictionaries keep insertion order and are
    restricted to string keys. *)
#[warnings="-register-all"]
Inductive pyval : Type :=
| PNone
| PBool (b : bool)
| PInt (z : Z)
| PStr (s : string)
| PList (l : list pyval)
| PTuple (l : list pyval)
| PDict (d : list (string * pyval)).

(** Exceptions the modelled operations raise. *)
Inductive pyexc : Type :=
| IndexError
| KeyError (k : string)
| TypeError
| ValueError
| NoReverseMatch
| DisallowedRedirect.

Inductive result (A : Type) : Type :=
| Ok (a : A)
| Raise (e : pyexc).
Arguments Ok {A} a.
Arguments Raise {A} e.

Definition rbind {A B} (r : result A) (k : A -> result B) : result B :=
  match r with
  | Ok a => k a
  | Raise e => Raise e
  end.

(** The comprehension [[f(g) for g in l]]: elements in order, the first
    exception wins. *)
Fixpoint comprehension {A B} (f : A -> result B) (l : list A) : result (list B) :=
  match l with
  | [] => Ok []
  | x :: r => rbind (f x) (fun y => rbind (comprehension f r) (fun ys => Ok (y :: ys)))
  end.

(** [bool(v)] as used by [if v:]. *)
Definition py_truthy (v : pyval) : bool :=
  match v with
  | PNone => false
  | PBool b => b
  | PInt z => negb (Z.eqb z 0)
  | PStr s => negb (String.eqb s "")
  | PList l => match l with [] => false | _ => true end
  | PTuple l => match l with [] => false | _ => true end
  | PDict d => match d with [] => false | _ => true end
  end.

Definition is_dict (v : pyval) : bool :=
  match v with PDict _ => true | _ => false end.

Definition is_tuple (v : pyval) : bool :=
  match v with PTuple _ => true | _ => false end.

(** [d.get(key)] on a dict: the value, or [None] when the key is missing. *)
Fixpoint assoc (key : string) (d : list (string * pyval)) : option pyval :=
  match d with
  | [] => None
  | (k, v) :: r => if String.eqb k key then Some v else assoc key r
  end.

Definition dict_get (d : list (string * pyval)) (key : string) : pyval :=
  match assoc key d with
  | Some v => v
  | None => PNone
  end.

(** [t[0]] on a tuple. *)
Definition tuple_first (t : list pyval) : result pyval :=
  match t with
  | [] => Raise IndexError
  | x :: _ => Ok x
  end.

(** [g[key]] with a string key: only a dict accepts it. *)
Definition py_getitem (g : pyval) (key : string) : result pyval :=
  match g with
  | PDict d =>
      match assoc key d with
      | Some v => Ok v
      | None => Raise (KeyError key)
      end
  | _ => Raise TypeError
  end.

Fixpoint chars (s : string) : list pyval :=
  match s with
  | EmptyString => []
  | String c r => PStr (String c EmptyString) :: chars r
  end.

(** The elements [for g in v] runs over: the items of a list or tuple,
    the keys of a dict, the characters of a string (here its bytes, one
    string of length one each); anything else is not iterable. *)
Definition py_iter (v : pyval) : result (list pyval) :=
  match v with
  | PList l => Ok l
  | PTuple l => Ok l
  | PDict d => Ok (map (fun kv => PStr (fst kv)) d)
  | PStr s => Ok (chars s)
  | _ => Raise TypeError
  end.

(** [sep.join(l)]: every element has to be a [str]. *)
Fixpoint py_join (sep : string) (l : list pyval) : result string :=
  match l with
  | [] => Ok ""
  | PStr s :: r =>
      match r with
      | [] => Ok s
      | _ => rbind (py_join sep r) (fun t => Ok (s +:+ sep +:+ t))
      end
  | _ :: _ => Raise TypeError
  end.

(** ** [str] and [repr] *)

Definition hex_digit (upper : bool) (n : N) : ascii :=
  match String.get (N.to_nat n)
          (if upper then "0123456789ABCDEF" else "0123456789abcdef") with
  | Some c => c
  | None => "0"%char
  end.

Definition hex2 (upper : bool) (c : ascii) : string :=
  let n := N_of_ascii c in
  String (hex_digit upper (n / 16)) (String (hex_digit upper (n mod 16)) "").

Fixpoint mem_char (c : ascii) (s : string) : bool :=
  match s with
  | EmptyString => false
  | String d r => Ascii.eqb c d || mem_char c r
  end.

(** One character of [repr(s)] inside the quote [q]: backslash, the quote
    and the control characters are escaped; bytes from 128 on belong to
    printable characters and stay. *)
Definition repr_char (q c : ascii) : string :=
  if Ascii.eqb c "\"%char then "\\"
  else if Ascii.eqb c q then String "\"%char (String q "")
  else if Ascii.eqb c "010"%char then "\n"
  else if Ascii.eqb c "013"%char then "\r"
  else if Ascii.eqb c "009"%char then "\t"
  else if (N_of_ascii c <? 32)%N || Ascii.eqb c "127"%char
       then "\x" +:+ hex2 false c
  else String c "".

Fixpoint repr_body (q : ascii) (s : string) : string :=
  match s with
  | EmptyString => ""
  | String c r => repr_char q c +:+ repr_body q r
  end.

Definition repr_str (s : string) : string :=
  let dq := "034"%char in
  let q := if mem_char "'"%char s && negb (mem_char dq s)
           then dq else "'"%char in
  String q (repr_body q s +:+ String q "").

(** [sep.join(l)] on strings. *)
Fixpoint join_str (sep : string) (l : list string) : string :=
  match l with
  | [] => ""
  | s :: r =>
      match r with
      | [] => s
      | _ => s +:+ sep +:+ join_str sep r
      end
  end.

Fixpoint py_repr (v : pyval) : string :=
  match v with
  | PNone => "None"
  | PBool b => if b then "True" else "False"
  | PInt z => pretty z
  | PStr s => repr_str s
  | PList l => "[" +:+ join_str ", " (map py_repr l) +:+ "]"
  | PTuple l =>
      match l with
      | [x] => "(" +:+ py_repr x +:+ ",)"
      | _ => "(" +:+ join_str ", " (map py_repr l) +:+ ")"
      end
  | PDict d =>
      "{" +:+ join_str ", "
                (map (fun kv => repr_str (fst kv) +:+ ": " +:+ py_repr (snd kv)) d)
          +:+ "}"
  end.

(** [str(v)]: a string is itself, everything else prints as its [repr]. *)
Definition py_str (v : pyval) : string :=
  match v with
  | PStr s => s
  | _ => py_repr v
  end.

(** ** [str.format] *)

(** [template.format(a, b, ...)] for templates built from text, the
    auto-numbered field [{}] and the escapes [{{] and [}}].  A brace that
    is none of these is a [ValueError]; named, indexed and converted fields
    do not occur in the templates of this module and are not modelled. *)
Fixpoint py_format (template : string) (args : list pyval) : result string :=
  match template with
  | EmptyString => Ok ""
  | String c r =>
      if Ascii.eqb c "{"%char then
        match r with
        | String d r' =>
            if Ascii.eqb d "{"%char then
              rbind (py_format r' args) (fun t => Ok (String "{"%char t))
            else if Ascii.eqb d "}"%char then
              match args with
              | [] => Raise IndexError
              | a :: args' =>
                  rbind (py_format r' args') (fun t => Ok (py_str a +:+ t))
              end
            else Raise ValueError
        | EmptyString => Raise ValueError
        end
      else if Ascii.eqb c "}"%char then
        match r with
        | String d r' =>
            if Ascii.eqb d "}"%char then
              rbind (py_format r' args) (fun t => Ok (String "}"%char t))
            else Raise ValueError
        | EmptyString => Raise ValueError
        end
      else rbind (py_format r args) (fun t => Ok (String c t))
  end.

(** ** [urllib.parse]: [quote], [quote_plus], [urlencode] *)

Module Urllib.

Definition between (lo hi c : ascii) : bool :=
  (N_of_ascii lo <=? N_of_ascii c)%N && (N_of_ascii c <=? N_of_ascii hi)%N.

(** [_ALWAYS_SAFE]: the unreserved characters, never quoted (with the
    tilde, as from Python 3.7 on). *)
Definition always_safe (c : ascii) : bool :=
  between "A" "Z" c || between "a" "z" c || between "0" "9" c
  || mem_char c "_.-~".

(** What [quote] emits for one byte. *)
Definition quote_byte (safe : string) (c : ascii) : string :=
  if always_safe c || mem_char c safe then String c ""
  else String "%"%char (hex2 true c).

(** [quote(s, safe)]: the bytes of [s], each kept when safe and written
    [%XX] otherwise. *)
Fixpoint quote (s : string) (safe : string) : string :=
  match s with
  | EmptyString => ""
  | String c r => quote_byte safe c +:+ quote r safe
  end.

(** [s.replace(a, b)] for one-character [a] and [b]. *)
Fixpoint replace (a b : ascii) (s : string) : string :=
  match s with
  | EmptyString => ""
  | String c r => String (if Ascii.eqb c a then b else c) (replace a b r)
  end.

(** [quote_plus(s, safe)]: as [quote], with a space written [+]. *)
Definition quote_plus (s : string) (safe : string) : string :=
  if negb (mem_char " " s) then quote s safe
  else replace " " "+" (quote s (safe +:+ " ")).

(** [urlencode(query)] with the defaults [doseq=False], [safe=''],
    [quote_via=quote_plus], on a mapping of strings to strings given as
    its items. *)
Definition urlencode (query : list (string * string)) : string :=
  join_str "&"
    (map (fun kv => quote_plus (fst kv) "" +:+ "=" +:+ quote_plus (snd kv) "")
         query).

(** *** Decoding

    The inverse a receiver applies to a query value,
    [urllib.parse.unquote_plus]: [+] stands for a space and [%XX], with
    hexadecimal digits of either case, for one byte.  A [%] that is not
    followed by two hexadecimal digits stays as it is.  The result is the
    decoded bytes: the library's last step, reading them as UTF-8 and
    replacing what is not, changes nothing on the bytes of a [str], and
    [quote_plus] writes no other. *)

Definition hex_val (c : ascii) : option N :=
  let n := N_of_ascii c in
  if between "0" "9" c then Some (n - 48)%N
  else if between "A" "F" c then Some (n - 55)%N
  else if between "a" "f" c then Some (n - 87)%N
  else None.

Fixpoint unquote (s : string) : string :=
  match s with
  | EmptyString => ""
  | String c r =>
      if Ascii.eqb c "%" then
        match r with
        | String a (String b r') =>
            match hex_val a, hex_val b with
            | Some x, Some y => String (ascii_of_N (16 * x + y)) (unquote r')
            | _, _ => String c (unquote r)
            end
        | _ => String c (unquote r)
        end
      else String c (unquote r)
  end.

Definition unquote_plus (s : string) : string :=
  unquote (replace "+" " " s).

(** *** Byte-wise reading, for the proofs *)

(** [quote_plus] byte by byte. *)
Definition plus_byte (c : ascii) : string :=
  if always_safe c then String c ""
  else if Ascii.eqb c " " then "+"
  else String "%"%char (hex2 true c).

Fixpoint plus_bytes (s : string) : string :=
  match s with
  | EmptyString => ""
  | String c r => plus_byte c +:+ plus_bytes r
  end.

(** The encoded value holds none of the characters that end a query
    value or split it. *)
Definition delimiter (c : ascii) : bool := mem_char c "&#=?;/ ".

Fixpoint no_delimiter (s : string) : bool :=
  match s with
  | EmptyString => true
  | String c r => negb (delimiter c) && no_delimiter r
  end.

End Urllib.

(** ** The framework around the middleware *)

Inductive log_level : Type := INFO | WARNING.

(** What a call can change: the authenticated user of the request ([None]
    is the anonymous user), the session of the request, which is also the
    session the backend's strategy writes to, and the records handed to the
    module's logger. *)
Record World : Type := mkWorld {
  user : option string;
  session : gmap string pyval;
  logs : list (log_level * string)
}.

(** What a call reads and never writes: the URL configuration behind
    [django.urls.reverse] (a route name and keyword arguments give a path,
    or there is no match), the attributes of [django.conf.settings], and
    the framework's response constructor: [redirect_refused] is the
    exception [HttpResponseRedirect] raises for a target, if any (Django
    raises [TypeError] for a target that is not a string and
    [DisallowedRedirect] for a scheme it does not allow or, in recent
    releases, a URL that is too long).  A path that [reverse] gives, the
    script prefix and the route, is a short string without scheme: the
    constructor takes it. *)
Record Env : Type := mkEnv {
  urlconf : string -> list (string * string) -> option string;
  settings : gmap string pyval;
  redirect_refused : pyval -> option pyexc;
  reversed_accepted :
    forall name kwargs path,
      urlconf name kwargs = Some path -> redirect_refused (PStr path) = None
}.

Record Request : Type := mkRequest {
  full_path : string
}.

(** The exception handed to [process_exception], by the class that
    [isinstance] finds.  [AuthForbidden(backend, ...)] keeps the backend
    aside; [args] is what follows it. *)
Inductive exception : Type :=
| ExpiredGlobusToken
| AuthForbidden (args : list pyval)
| OtherException (args : list pyval).

(** A redirect response, by the target it was built from. *)
Inductive response : Type :=
| HttpResponseRedirect (redirect_to : pyval).

(** Statements run on a [World]; an exception leaves the writes made before
    it in place. *)
Definition M (A : Type) : Type := World -> result A * World.

Definition ret {A} (a : A) : M A := fun w => (Ok a, w).

Definition bind {A B} (m : M A) (k : A -> M B) : M B :=
  fun w =>
    match m w with
    | (Ok a, w') => k a w'
    | (Raise e, w') => (Raise e, w')
    end.

Definition lift {A} (r : result A) : M A := fun w => (r, w).

Notation "x <- m ;; k" := (bind m (fun x => k))
  (at level 100, m at next level, right associativity).
Notation "m ;;; k" := (bind m (fun _ => k))
  (at level 100, right associativity).

Definition request_user : M pyval :=
  fun w => (Ok (PStr (default "AnonymousUser" (user w))), w).

Definition log_info (msg : string) : M unit :=
  fun w => (Ok tt, mkWorld (user w) (session w) (logs w ++ [(INFO, msg)])).

Definition log_warning (msg : string) : M unit :=
  fun w => (Ok tt, mkWorld (user w) (session w) (logs w ++ [(WARNING, msg)])).

(** [auth.logout(request)]: the session is flushed and the request's user
    becomes the anonymous user. *)
Definition auth_logout : M unit :=
  fun w => (Ok tt, mkWorld None ∅ (logs w)).

(** [strategy.session_set(name, value)]. *)
Definition session_set (name : string) (value : pyval) : M unit :=
  fun w => (Ok tt, mkWorld (user w) (<[name := value]> (session w)) (logs w)).

Definition reverse (env : Env) (name : string) (kwargs : list (string * string))
  : M string :=
  lift (match urlconf env name kwargs with
        | Some path => Ok path
        | None => Raise NoReverseMatch
        end).

(** The call [HttpResponseRedirect(redirect_to)]: the response, or the
    exception the framework's constructor raises for this target. *)
Definition http_response_redirect (env : Env) (redirect_to : pyval)
  : M response :=
  lift (match redirect_refused env redirect_to with
        | Some e => Raise e
        | None => Ok (HttpResponseRedirect redirect_to)
        end).

(** [getattr(settings, name, None)]. *)
Definition getattr_settings (env : Env) (name : string) : pyval :=
  default PNone (settings env !! name).

(** ** The middleware *)

Definition login_start (env : Env) : M string :=
  reverse env "social:begin" [("backend", "globus")].

Module ExpiredTokenMiddleware.

Definition process_exception (env : Env) (request : Request) (exc : exception)
  : M (option response) :=
  match exc with
  | ExpiredGlobusToken =>
      u <- request_user ;;
      msg <- lift (py_format
                     "Tokens expired for user {}, redirecting to login." [u]) ;;
      log_info msg ;;;
      auth_logout ;;;
      base_url <- login_start env ;;
      let params := Urllib.urlencode [("next", full_path request)] in
      url <- lift (py_format "{}?{}" [PStr base_url; PStr params]) ;;
      redirect <- http_response_redirect env (PStr url) ;;
      ret (Some redirect)
  | _ => ret None
  end.

End ExpiredTokenMiddleware.

Module GlobusAuthExceptionMiddleware.

Definition session_message_template : string :=
  "Your current account does not have sufficient access to this "
  +:+ "resource, but one of your linked identities does. Please "
  +:+ "login with one of those identities listed below.".

Definition warning_message : string :=
  "Authenticating to a group failed due to group not being "
  +:+ "visible and settings.SOCIAL_AUTH_GLOBUS_GROUP_JOIN_URL "
  +:+ "not being set. You should reconfigure one of these.".

(** The branch taken when a linked identity is in an allowed group. *)
Definition redirect_to_login (env : Env) (allowed_user_member_groups : pyval)
  : M (option response) :=
  gs <- lift (py_iter allowed_user_member_groups) ;;
  req_ids <- lift (comprehension (fun g => py_getitem g "identity_id") gs) ;;
  usernames <- lift (comprehension (fun g => py_getitem g "username") gs) ;;
  msg <- lift (py_format session_message_template [PList usernames]) ;;
  session_set "session_message" (PStr msg) ;;;
  req_ids_string <- lift (py_join "," req_ids) ;;
  session_set "session_required_identities" (PStr req_ids_string) ;;;
  base_url <- login_start env ;;
  redirect <- http_response_redirect env (PStr base_url) ;;
  ret (Some redirect).

(** The branches taken when no linked identity is in an allowed group. *)
Definition redirect_to_join (env : Env) (kwargs : list (string * pyval))
  : M (option response) :=
  let jurl := getattr_settings env "SOCIAL_AUTH_GLOBUS_GROUP_JOIN_URL" in
  if py_truthy jurl
  then redirect <- http_response_redirect env jurl ;; ret (Some redirect)
  else
    let group_join_url := dict_get kwargs "group_join_url" in
    if py_truthy group_join_url
    then redirect <- http_response_redirect env group_join_url ;;
         ret (Some redirect)
    else log_warning warning_message ;;; ret None.

Definition process_exception (env : Env) (request : Request) (exc : exception)
  : M (option response) :=
  match exc with
  | AuthForbidden args =>
      if negb (is_tuple (PTuple args)) then ret None
      else
        first <- lift (tuple_first args) ;;
        match first with
        | PDict kwargs =>
            let allowed_user_member_groups :=
              dict_get kwargs "allowed_user_member_groups" in
            if py_truthy allowed_user_member_groups
            then redirect_to_login env allowed_user_member_groups
            else redirect_to_join env kwargs
        | _ => ret None
        end
  | _ => ret None
  end.

End GlobusAuthExceptionMiddleware.

(** [sub in s] on strings. *)
Fixpoint py_in (sub s : string) : bool :=
  String.prefix sub s
  || match s with
     | EmptyString => false
     | String _ r => py_in sub r
     end.

(** ** Sample inputs *)

(** A URL configuration with the route of social_django:
    [login/<backend>/] under the name [social:begin]. *)
Definition sample_urlconf (name : string) (kwargs : list (string * string))
  : option string :=
  if String.eqb name "social:begin" then
    match kwargs with
    | [(k, v)] =>
        if String.eqb k "backend" then Some ("/login/" +:+ v +:+ "/") else None
    | _ => None
    end
  else None.

Definition join_url_setting : string := "SOCIAL_AUTH_GLOBUS_GROUP_JOIN_URL".

Definition is_letter (c : ascii) : bool :=
  Urllib.between "A" "Z" c || Urllib.between "a" "z" c.

Definition lower (c : ascii) : ascii :=
  if Urllib.between "A" "Z" c then ascii_of_N (N_of_ascii c + 32) else c.

(** The characters before the first colon, in lower case, when all of
    them may stand in a scheme. *)
Fixpoint before_colon (s : string) : option string :=
  match s with
  | EmptyString => None
  | String c r =>
      if Ascii.eqb c ":" then Some ""
      else if is_letter c || Urllib.between "0" "9" c || mem_char c "+-."
           then match before_colon r with
                | Some t => Some (String (lower c) t)
                | None => None
                end
           else None
  end.

(** The scheme of a URL: it starts with a letter and ends at the colon. *)
Definition url_scheme (s : string) : option string :=
  match s with
  | String c _ => if is_letter c then before_colon s else None
  | EmptyString => None
  end.

(** A sample response constructor, after Django's: a target that is not a
    string is a [TypeError], and a string with a scheme other than http,
    https and ftp is refused. *)
Definition sample_refused (target : pyval) : option pyexc :=
  match target with
  | PStr s =>
      match url_scheme s with
      | Some scheme =>
          if String.eqb scheme "http" || String.eqb scheme "https"
             || String.eqb scheme "ftp"
          then None else Some DisallowedRedirect
      | None => None
      end
  | _ => Some TypeError
  end.

Definition sample_reversed_accepted
           (name : string) (kwargs : list (string * string)) (path : string) :
  sample_urlconf name kwargs = Some path -> sample_refused (PStr path) = None.
Proof.
  unfold sample_urlconf.
  destruct (String.eqb name "social:begin"); [| discriminate].
  destruct kwargs as [|[k v] [|? ?]]; try discriminate.
  destruct (String.eqb k "backend"); [| discriminate].
  intros [= <-]. reflexivity.
Qed.

Definition sample_env : Env :=
  mkEnv sample_urlconf ∅ sample_refused sample_reversed_accepted.

Definition sample_env_with (jurl : pyval) : Env :=
  mkEnv sample_urlconf {[ join_url_setting := jurl ]}
        sample_refused sample_reversed_accepted.

(** A URL configuration without the routes of social_django. *)
Definition no_routes_env : Env :=
  mkEnv (fun _ _ => None) ∅ sample_refused
        (fun name kwargs path (H : None = Some path) =>
           match H in _ = o return match o with
                                   | Some _ => sample_refused (PStr path) = None
                                   | None => True
                                   end
           with eq_refl => I end).

(** The environment with one setting removed. *)
Definition without_setting (name : string) (env : Env) : Env :=
  mkEnv (urlconf env) (delete name (settings env))
        (redirect_refused env) (reversed_accepted env).

Definition sample_world : World :=
  mkWorld (Some "carol") {[ "csrf" := PStr "token" ]} [].

Definition sample_request : Request := mkRequest "/collections/abc?query=x".

Definition alice_and_bob : pyval :=
  PList [PDict [("identity_id", PStr "id1"); ("username", PStr "alice")];
         PDict [("identity_id", PStr "id2"); ("username", PStr "bob")]].

(** The world after one more warning of the group-auth middleware. *)
Definition warned (w : World) : World :=
  mkWorld (user w) (session w)
          (logs w ++ [(WARNING, GlobusAuthExceptionMiddleware.warning_message)]).

(** The same world with another session. *)
Definition with_session (s : gmap string pyval) (w : World) : World :=
  mkWorld (user w) s (logs w).

(** [allowed_user_member_groups] is empty or absent: [if ...:] fails. *)
Definition no_allowed_groups (kwargs : list (string * pyval)) : Prop :=
  py_truthy (dict_get kwargs "allowed_user_member_groups") = false.

(** ** Expected worlds and targets *)

Definition expired_log (w : World) : log_level * string :=
  (INFO, "Tokens expired for user " +:+ default "AnonymousUser" (user w)
         +:+ ", redirecting to login.").

(** The world an expired token leaves: logged out, one more record. *)
Definition logged_out (w : World) : World :=
  mkWorld None ∅ (logs w ++ [expired_log w]).

(** What a [return HttpResponseRedirect(target)] gives. *)
Definition redirect_outcome (env : Env) (target : pyval)
  : result (option response) :=
  match redirect_refused env target with
  | Some e => Raise e
  | None => Ok (Some (HttpResponseRedirect target))
  end.

Definition login_url (base path : string) : string :=
  base +:+ "?" +:+ "next=" +:+ Urllib.quote_plus path "".

(** Well-formed identity records, as the backend builds them. *)
Definition record (r : string * string) : pyval :=
  PDict [("identity_id", PStr (fst r)); ("username", PStr (snd r))].

Definition records (l : list (string * string)) : pyval :=
  PList (map record l).

(** The world after the login branch wrote its two session entries. *)
Definition identities_offered (ids : list string) (w : World) : World :=
  mkWorld (user w)
          (<["session_required_identities" := PStr (join_str "," ids)]>
             (<["session_message" := PStr GlobusAuthExceptionMiddleware.session_message_template]>
                (session w)))
          (logs w).

(** ** The claims that fail as worded *)

(** C4 as the specification words it: a configured value, whatever it is,
    is the redirect target. *)
Definition configured_url_always_followed : Prop :=
  forall env request kwargs w jurl,
    no_allowed_groups kwargs ->
    settings env !! join_url_setting = Some jurl ->
    fst (GlobusAuthExceptionMiddleware.process_exception
        env request (AuthForbidden [PDict kwargs]) w)
    = Ok (Some (HttpResponseRedirect jurl)).

(** C6 as the specification words it: a [group_join_url] entry of the
    payload, whatever it holds, is the redirect target. *)
Definition payload_url_always_followed : Prop :=
  forall env request kwargs w url,
    no_allowed_groups kwargs ->
    settings env !! join_url_setting = None ->
    assoc "group_join_url" kwargs = Some url ->
    fst (GlobusAuthExceptionMiddleware.process_exception
        env request (AuthForbidden [PDict kwargs]) w)
    = Ok (Some (HttpResponseRedirect url)).

(** ** Shapes of payloads, and readers of what the middleware writes *)

Definition is_str (v : pyval) : bool :=
  match v with PStr _ => true | _ => false end.

(** A list or a tuple. *)
Definition is_sequence (v : pyval) : bool :=
  match v with PList _ | PTuple _ => true | _ => false end.

(** [key in g] for a dict [g]; false for anything else. *)
Definition has_key (key : string) (g : pyval) : bool :=
  match g with
  | PDict d => match assoc key d with Some _ => true | None => false end
  | _ => false
  end.

(** [g] is a dict whose [identity_id] is a string. *)
Definition id_is_str (g : pyval) : bool :=
  match g with
  | PDict d =>
      match assoc "identity_id" d with
      | Some (PStr _) => true
      | _ => false
      end
  | _ => false
  end.

(** [g["identity_id"]] is the string [i]. *)
Definition has_identity (g : pyval) (i : string) : Prop :=
  py_getitem g "identity_id" = Ok (PStr i).

Definition is_auth_forbidden (exc : exception) : bool :=
  match exc with AuthForbidden _ => true | _ => false end.

Fixpoint all_chars (p : ascii -> bool) (s : string) : bool :=
  match s with
  | EmptyString => true
  | String c r => p c && all_chars p r
  end.

(** The characters [quote_plus] writes: unreserved ones, [%] and [+]. *)
Definition url_char (c : ascii) : bool :=
  Urllib.always_safe c || Ascii.eqb c "%" || Ascii.eqb c "+".

Definition not_brace (c : ascii) : bool :=
  negb (Ascii.eqb c "{" || Ascii.eqb c "}").

(** [s.split(sep)] for a one-character [sep], the reading side of
    [sep.join]: the pieces between the separators, empty ones included. *)
Fixpoint py_split (sep : ascii) (s : string) : list string :=
  match s with
  | EmptyString => [""]
  | String c r =>
      if Ascii.eqb c sep then "" :: py_split sep r
      else match py_split sep r with
           | h :: t => String c h :: t
           | [] => [String c ""]
           end
  end.

(** The framework's loop over two exception middleware: the first
    response is returned, no decision passes the exception on to the next
    one, and an exception raised by a middleware ends the loop. *)
Definition first_response (h1 h2 : M (option response)) : M (option response) :=
  r <- h1 ;;
  match r with
  | Some _ => ret r
  | None => h2
  end.

(** What the login branch may change: two session keys, nothing else. *)
Definition same_but_offer (w w' : World) : Prop :=
  user w' = user w
  /\ logs w' = logs w
  /\ forall k : string,
       k <> "session_message" -> k <> "session_required_identities" ->
       session w' !! k = session w !! k.

(** * Properties *)

(** ** Strings *)

Lemma append_cons (c : ascii) (s t : string) :
  String c s +:+ t = String c (s +:+ t).
Proof. reflexivity. Qed.

Lemma append_empty_l (t : string) : "" +:+ t = t.
Proof. reflexivity. Qed.

Ltac str_simpl := simpl; rewrite ?append_cons, ?append_empty_l.

Lemma append_empty_r (s : string) : s +:+ "" = s.
Proof. induction s as [|c s IH]; str_simpl; [reflexivity | now rewrite IH]. Qed.

(** ** Percent-encoding *)

Module UrllibFacts.
Import Urllib.

Ltac each_byte c :=
  destruct c as [[] [] [] [] [] [] [] []].

Lemma replace_app (a b : ascii) (s t : string) :
  replace a b (s +:+ t) = replace a b s +:+ replace a b t.
Proof. induction s as [|c s IH]; str_simpl; [reflexivity | now rewrite IH]. Qed.

Lemma quote_byte_no_space (c : ascii) :
  Ascii.eqb c " " = false -> quote_byte "" c = plus_byte c.
Proof. each_byte c; intros H; try reflexivity; discriminate H. Qed.

Lemma quote_byte_space_safe (c : ascii) :
  replace " " "+" (quote_byte " " c) = plus_byte c.
Proof. each_byte c; reflexivity. Qed.

Lemma quote_no_space (s : string) :
  mem_char " " s = false -> quote s "" = plus_bytes s.
Proof.
  induction s as [|c s IH]; str_simpl; [reflexivity |].
  intros H. change (Ascii.eqb " " c || mem_char " " s = false) in H.
  apply orb_false_elim in H as [Hc Hs].
  rewrite Ascii.eqb_sym in Hc.
  now rewrite (quote_byte_no_space c Hc), (IH Hs).
Qed.

Lemma quote_space_safe (s : string) :
  replace " " "+" (quote s " ") = plus_bytes s.
Proof.
  induction s as [|c s IH]; str_simpl; [reflexivity |].
  now rewrite replace_app, quote_byte_space_safe, IH.
Qed.

Lemma quote_plus_bytes (s : string) : quote_plus s "" = plus_bytes s.
Proof.
  unfold quote_plus.
  destruct (mem_char " " s) eqn:E; simpl.
  - apply quote_space_safe.
  - now apply quote_no_space.
Qed.

(** Decoding undoes the encoding of one byte, whatever follows. *)
Lemma unquote_plus_byte (c : ascii) (t : string) :
  unquote_plus (plus_byte c +:+ t) = String c (unquote_plus t).
Proof. unfold unquote_plus. each_byte c; reflexivity. Qed.

Lemma unquote_plus_bytes (s : string) : unquote_plus (plus_bytes s) = s.
Proof.
  induction s as [|c s IH]; str_simpl; [reflexivity |].
  now rewrite unquote_plus_byte, IH.
Qed.

Lemma unquote_quote_plus (s : string) : unquote_plus (quote_plus s "") = s.
Proof. rewrite quote_plus_bytes. apply unquote_plus_bytes. Qed.

Lemma no_delimiter_app (s t : string) :
  no_delimiter (s +:+ t) = no_delimiter s && no_delimiter t.
Proof.
  induction s as [|c s IH]; str_simpl; [reflexivity |].
  now rewrite IH, andb_assoc.
Qed.

Lemma plus_byte_no_delimiter (c : ascii) : no_delimiter (plus_byte c) = true.
Proof. each_byte c; reflexivity. Qed.

Lemma quote_plus_no_delimiter (s : string) :
  no_delimiter (quote_plus s "") = true.
Proof.
  rewrite quote_plus_bytes.
  induction s as [|c s IH]; str_simpl; [reflexivity |].
  now rewrite no_delimiter_app, plus_byte_no_delimiter, IH.
Qed.

Lemma urlencode_next (path : string) :
  urlencode [("next", path)] = "next=" +:+ quote_plus path "".
Proof. reflexivity. Qed.

End UrllibFacts.

(** ** Templates *)

Lemma format_url (a b : string) :
  py_format "{}?{}" [PStr a; PStr b] = Ok (a +:+ "?" +:+ b).
Proof. simpl. now rewrite append_empty_r. Qed.

Lemma format_expired (u : string) :
  py_format "Tokens expired for user {}, redirecting to login." [PStr u]
  = Ok ("Tokens expired for user " +:+ u +:+ ", redirecting to login.").
Proof. reflexivity. Qed.

(** The template of the session message has no field: it formats to
    itself, whatever the arguments. *)
Lemma format_session_message (args : list pyval) :
  py_format GlobusAuthExceptionMiddleware.session_message_template args
  = Ok GlobusAuthExceptionMiddleware.session_message_template.
Proof. reflexivity. Qed.

(** ** ExpiredTokenMiddleware *)

Lemma redirect_run (env : Env) (target : pyval) (w : World) :
  bind (http_response_redirect env target) (fun r => ret (Some r)) w
  = (redirect_outcome env target, w).
Proof.
  unfold bind, http_response_redirect, lift, redirect_outcome, ret.
  now destruct (redirect_refused env target).
Qed.

Lemma redirect_outcome_accepted (env : Env) (target : pyval) :
  redirect_refused env target = None ->
  redirect_outcome env target = Ok (Some (HttpResponseRedirect target)).
Proof. intros H. unfold redirect_outcome. now rewrite H. Qed.

Lemma redirect_outcome_target (env : Env) (target : pyval) (r : response) :
  redirect_outcome env target = Ok (Some r) -> r = HttpResponseRedirect target.
Proof.
  unfold redirect_outcome.
  destruct (redirect_refused env target); [discriminate | now intros [= <-]].
Qed.

Module ExpiredTokenFacts.
Import ExpiredTokenMiddleware.

Lemma expired_run (env : Env) (request : Request) (w : World) :
  process_exception env request ExpiredGlobusToken w
  = match urlconf env "social:begin" [("backend", "globus")] with
    | Some base =>
        (redirect_outcome env (PStr (login_url base (full_path request))),
         logged_out w)
    | None => (Raise NoReverseMatch, logged_out w)
    end.
Proof.
  unfold process_exception, bind at 1 2 3 4 5 6, request_user, lift.
  rewrite format_expired.
  unfold log_info, auth_logout, login_start, reverse, lift.
  destruct (urlconf env "social:begin" [("backend", "globus")]) as [base|];
    [| reflexivity].
  rewrite format_url, UrllibFacts.urlencode_next.
  apply redirect_run.
Qed.

Lemma other_run (env : Env) (request : Request) (exc : exception) (w : World) :
  exc <> ExpiredGlobusToken ->
  process_exception env request exc w = (Ok None, w).
Proof. intros H. destruct exc; [contradiction | reflexivity | reflexivity]. Qed.

Lemma expired_outcome_any_world (env : Env) (request : Request) (exc : exception)
      (w1 w2 : World) :
  fst (process_exception env request exc w1)
  = fst (process_exception env request exc w2).
Proof.
  destruct exc; try reflexivity.
  rewrite !expired_run.
  now destruct (urlconf env "social:begin" [("backend", "globus")]).
Qed.

End ExpiredTokenFacts.

(** ** GlobusAuthExceptionMiddleware *)

Module GlobusAuthFacts.
Import GlobusAuthExceptionMiddleware.

Lemma identity_ids (l : list (string * string)) :
  comprehension (fun g => py_getitem g "identity_id") (map record l)
  = Ok (map (fun r => PStr (fst r)) l).
Proof.
  induction l as [|r l IH]; [reflexivity |].
  simpl map. simpl comprehension. now rewrite IH.
Qed.

Lemma usernames (l : list (string * string)) :
  comprehension (fun g => py_getitem g "username") (map record l)
  = Ok (map (fun r => PStr (snd r)) l).
Proof.
  induction l as [|r l IH]; [reflexivity |].
  simpl map. simpl comprehension. now rewrite IH.
Qed.

Lemma join_strings (sep : string) (l : list string) :
  py_join sep (map PStr l) = Ok (join_str sep l).
Proof.
  induction l as [|s l IH]; [reflexivity |].
  destruct l as [|t l]; [reflexivity |].
  change (py_join sep (map PStr (s :: t :: l)))
    with (rbind (py_join sep (map PStr (t :: l)))
                (fun u => Ok (s +:+ sep +:+ u))).
  now rewrite IH.
Qed.

(** The login branch once the two comprehensions and the join went
    through: both entries are written, then the route is looked up. *)
Lemma login_steps (env : Env) (allowed : pyval) (gs us : list pyval)
      (ids : list string) (w : World) :
  py_iter allowed = Ok gs ->
  comprehension (fun g => py_getitem g "identity_id") gs = Ok (map PStr ids) ->
  comprehension (fun g => py_getitem g "username") gs = Ok us ->
  redirect_to_login env allowed w
  = match urlconf env "social:begin" [("backend", "globus")] with
    | Some base =>
        (Ok (Some (HttpResponseRedirect (PStr base))), identities_offered ids w)
    | None => (Raise NoReverseMatch, identities_offered ids w)
    end.
Proof.
  intros Hiter Hids Hus.
  unfold redirect_to_login, bind at 1 2 3 4 5 6 7 8, lift.
  rewrite Hiter, Hids, Hus, format_session_message.
  unfold session_set. rewrite join_strings.
  unfold login_start, reverse, lift.
  destruct (urlconf env "social:begin" [("backend", "globus")]) as [base|] eqn:E;
    [| reflexivity].
  rewrite redirect_run, redirect_outcome_accepted; [reflexivity |].
  exact (reversed_accepted env _ _ _ E).
Qed.

Lemma login_run (env : Env) (l : list (string * string)) (w : World) :
  redirect_to_login env (records l) w
  = match urlconf env "social:begin" [("backend", "globus")] with
    | Some base =>
        (Ok (Some (HttpResponseRedirect (PStr base))),
         identities_offered (map fst l) w)
    | None => (Raise NoReverseMatch, identities_offered (map fst l) w)
    end.
Proof.
  apply (login_steps env (records l) (map record l)
           (map (fun r => PStr (snd r)) l)).
  - reflexivity.
  - rewrite identity_ids. now rewrite map_map.
  - apply usernames.
Qed.

Lemma payload_run (env : Env) (request : Request)
      (kwargs : list (string * pyval)) (rest : list pyval) (w : World) :
  process_exception env request (AuthForbidden (PDict kwargs :: rest)) w
  = if py_truthy (dict_get kwargs "allowed_user_member_groups")
    then redirect_to_login env (dict_get kwargs "allowed_user_member_groups") w
    else redirect_to_join env kwargs w.
Proof.
  unfold process_exception, bind, lift; simpl.
  now destruct (py_truthy (dict_get kwargs "allowed_user_member_groups")).
Qed.

(** A first argument that is not a dict: no decision, nothing touched. *)
Lemma not_mapping_run (env : Env) (request : Request)
      (first : pyval) (rest : list pyval) (w : World) :
  is_dict first = false ->
  process_exception env request (AuthForbidden (first :: rest)) w
  = (Ok None, w).
Proof. intros H. destruct first; try reflexivity. discriminate H. Qed.

Lemma join_configured (env : Env) (kwargs : list (string * pyval)) (w : World) :
  py_truthy (getattr_settings env join_url_setting) = true ->
  redirect_to_join env kwargs w
  = (redirect_outcome env (getattr_settings env join_url_setting), w).
Proof.
  intros H. unfold redirect_to_join.
  fold join_url_setting. rewrite H. apply redirect_run.
Qed.

Lemma join_from_payload (env : Env) (kwargs : list (string * pyval)) (w : World) :
  py_truthy (getattr_settings env join_url_setting) = false ->
  py_truthy (dict_get kwargs "group_join_url") = true ->
  redirect_to_join env kwargs w
  = (redirect_outcome env (dict_get kwargs "group_join_url"), w).
Proof.
  intros H1 H2. unfold redirect_to_join.
  fold join_url_setting. rewrite H1, H2. apply redirect_run.
Qed.

Lemma join_nowhere (env : Env) (kwargs : list (string * pyval)) (w : World) :
  py_truthy (getattr_settings env join_url_setting) = false ->
  py_truthy (dict_get kwargs "group_join_url") = false ->
  redirect_to_join env kwargs w = (Ok None, warned w).
Proof.
  intros H1 H2. unfold redirect_to_join.
  fold join_url_setting. now rewrite H1, H2.
Qed.

(** The join branches by cases: a truthy target handed to the response
    constructor, or the logged fallback. *)
Lemma join_cases (env : Env) (kwargs : list (string * pyval)) (w : World) :
  (exists target,
      py_truthy target = true
      /\ redirect_to_join env kwargs w = (redirect_outcome env target, w))
  \/ (py_truthy (getattr_settings env join_url_setting) = false
      /\ py_truthy (dict_get kwargs "group_join_url") = false
      /\ redirect_to_join env kwargs w = (Ok None, warned w)).
Proof.
  destruct (py_truthy (getattr_settings env join_url_setting)) eqn:H1.
  - left. eexists. split; [exact H1 |]. now apply join_configured.
  - destruct (py_truthy (dict_get kwargs "group_join_url")) eqn:H2.
    + left. eexists. split; [exact H2 |]. now apply join_from_payload.
    + right. repeat split. now apply join_nowhere.
Qed.

(** A redirect of the join branches always goes to a truthy target. *)
Lemma join_target_truthy (env : Env) (kwargs : list (string * pyval))
      (w : World) (target : pyval) :
  fst (redirect_to_join env kwargs w) = Ok (Some (HttpResponseRedirect target)) ->
  py_truthy target = true.
Proof.
  destruct (join_cases env kwargs w) as [(t & Ht & ->) | (_ & _ & ->)].
  - simpl. intros H. apply redirect_outcome_target in H.
    injection H as <-. exact Ht.
  - discriminate.
Qed.

(** *** The decision does not read the world *)

Lemma login_outcome (env : Env) (allowed : pyval) (w1 w2 : World) :
  fst (redirect_to_login env allowed w1) = fst (redirect_to_login env allowed w2).
Proof.
  unfold redirect_to_login, bind at 1 2 3 4 5 6 7 8 10 11 12 13 14 15 16 17,
    lift, session_set, login_start, reverse.
  destruct (py_iter allowed) as [gs|]; [| reflexivity].
  destruct (comprehension (fun g => py_getitem g "identity_id") gs) as [ids|];
    [| reflexivity].
  destruct (comprehension (fun g => py_getitem g "username") gs) as [us|];
    [| reflexivity].
  rewrite format_session_message.
  destruct (py_join "," ids) as [joined|]; [| reflexivity].
  unfold lift.
  destruct (urlconf env "social:begin" [("backend", "globus")]);
    [| reflexivity].
  now rewrite !redirect_run.
Qed.

Lemma join_outcome (env : Env) (kwargs : list (string * pyval)) (w1 w2 : World) :
  fst (redirect_to_join env kwargs w1) = fst (redirect_to_join env kwargs w2).
Proof.
  destruct (py_truthy (getattr_settings env join_url_setting)) eqn:H1.
  - now rewrite !join_configured.
  - destruct (py_truthy (dict_get kwargs "group_join_url")) eqn:H2.
    + now rewrite !join_from_payload.
    + now rewrite !join_nowhere.
Qed.

Lemma group_outcome_any_world (env : Env) (request : Request) (exc : exception)
      (w1 w2 : World) :
  fst (process_exception env request exc w1)
  = fst (process_exception env request exc w2).
Proof.
  destruct exc as [|args|args]; try reflexivity.
  destruct args as [|first rest]; [reflexivity |].
  destruct first; try reflexivity.
  rewrite !payload_run.
  destruct (py_truthy (dict_get d "allowed_user_member_groups")).
  - apply login_outcome.
  - apply join_outcome.
Qed.

End GlobusAuthFacts.

(** * The claims *)

(** C1, at the input where the code departs from it: an [AuthForbidden]
    raised with the backend alone has the empty tuple as [args], and
    [exception.args[0]] raises [IndexError] instead of giving no decision. *)
Theorem auth_forbidden_without_payload_raises
        (env : Env) (request : Request) (w : World) :
  GlobusAuthExceptionMiddleware.process_exception
      env request (AuthForbidden []) w = (Raise IndexError, w).
Proof. reflexivity. Qed.

(** C2, at the input where the code departs from it: for the single
    eligible identity alice the stored [session_message] is the bare
    template, and the name alice is not in it. *)
Theorem session_message_omits_usernames
        (env : Env) (request : Request) (w : World) :
  let payload :=
    PDict [("allowed_user_member_groups",
            PList [PDict [("identity_id", PStr "id1");
                          ("username", PStr "alice")]])] in
  let after := snd (GlobusAuthExceptionMiddleware.process_exception
      env request (AuthForbidden [payload]) w) in
  session after !! "session_message"
  = Some (PStr GlobusAuthExceptionMiddleware.session_message_template)
  /\ py_in "alice" GlobusAuthExceptionMiddleware.session_message_template = false.
Proof.
  split; [| reflexivity].
  rewrite GlobusAuthFacts.payload_run.
  change (dict_get _ "allowed_user_member_groups")
    with (records [("id1", "alice")]).
  simpl py_truthy. cbv iota.
  rewrite GlobusAuthFacts.login_run.
  destruct (urlconf env "social:begin" [("backend", "globus")]); simpl;
    (rewrite lookup_insert_ne by discriminate); apply lookup_insert_eq.
Qed.

(** C3: with alice (id1) and bob (id2) as the eligible identities, the
    session entry [session_required_identities] is exactly id1,id2 and the
    decision is a redirect to the login-start route. *)
Theorem alice_and_bob_required_identities
        (env : Env) (request : Request) (kwargs : list (string * pyval))
        (rest : list pyval) (w : World) (base : string) :
  dict_get kwargs "allowed_user_member_groups" = alice_and_bob ->
  urlconf env "social:begin" [("backend", "globus")] = Some base ->
  let out := GlobusAuthExceptionMiddleware.process_exception
      env request (AuthForbidden (PDict kwargs :: rest)) w in
  fst out = Ok (Some (HttpResponseRedirect (PStr base)))
  /\ session (snd out) !! "session_required_identities" = Some (PStr "id1,id2").
Proof.
  intros Hpayload Hroute.
  rewrite GlobusAuthFacts.payload_run, Hpayload.
  change alice_and_bob
    with (records [("id1", "alice"); ("id2", "bob")]).
  simpl py_truthy. cbv iota.
  rewrite GlobusAuthFacts.login_run, Hroute. simpl.
  split; [reflexivity | apply lookup_insert_eq].
Qed.

Lemma alice_and_bob_required_identities_witness :
  let out := GlobusAuthExceptionMiddleware.process_exception
      sample_env sample_request
               (AuthForbidden [PDict [("allowed_user_member_groups", alice_and_bob)]])
               sample_world in
  fst out = Ok (Some (HttpResponseRedirect (PStr "/login/globus/")))
  /\ session (snd out) !! "session_required_identities" = Some (PStr "id1,id2").
Proof.
  apply (alice_and_bob_required_identities sample_env sample_request
           [("allowed_user_member_groups", alice_and_bob)] [] sample_world
           "/login/globus/"); reflexivity.
Defined.

(** C4, refuted as worded: the setting is configured (to the empty
    string), the payload names a join URL, and the redirect goes to the
    payload's URL, not to the configured value. *)
Lemma empty_configured_url_not_followed :
  let env := sample_env_with (PStr "") in
  let kwargs := [("group_join_url", PStr "https://app.globus.org/join")] in
  (no_allowed_groups kwargs
   /\ settings env !! join_url_setting = Some (PStr "")
   /\ GlobusAuthExceptionMiddleware.process_exception
       env sample_request (AuthForbidden [PDict kwargs]) sample_world
      = (Ok (Some (HttpResponseRedirect (PStr "https://app.globus.org/join"))),
         sample_world))
  /\ ~ configured_url_always_followed.
Proof.
  split; [repeat split |].
  intros H.
  specialize (H (sample_env_with (PStr "")) sample_request
                [("group_join_url", PStr "https://app.globus.org/join")]
                sample_world (PStr "") eq_refl eq_refl).
  discriminate H.
Qed.

(** C4, amended: with no eligible identity, a configured join URL that is
    truthy (for a string: not empty) and that the response constructor
    accepts is the redirect target, whatever the payload's
    [group_join_url]; nothing else changes. *)
Theorem configured_url_takes_precedence
        (env : Env) (request : Request) (kwargs : list (string * pyval))
        (rest : list pyval) (w : World) :
  no_allowed_groups kwargs ->
  py_truthy (getattr_settings env join_url_setting) = true ->
  redirect_refused env (getattr_settings env join_url_setting) = None ->
  GlobusAuthExceptionMiddleware.process_exception
      env request (AuthForbidden (PDict kwargs :: rest)) w
  = (Ok (Some (HttpResponseRedirect (getattr_settings env join_url_setting))), w).
Proof.
  intros Hnone Hset Haccepted.
  rewrite GlobusAuthFacts.payload_run, Hnone.
  rewrite GlobusAuthFacts.join_configured by exact Hset.
  now rewrite redirect_outcome_accepted.
Qed.

Lemma configured_url_takes_precedence_witness :
  GlobusAuthExceptionMiddleware.process_exception
      (sample_env_with (PStr "https://example.org/join")) sample_request
    (AuthForbidden [PDict [("allowed_user_member_groups", PList []);
                           ("group_join_url", PStr "https://app.globus.org/join")]])
    sample_world
  = (Ok (Some (HttpResponseRedirect (PStr "https://example.org/join"))),
     sample_world).
Proof.
  apply (configured_url_takes_precedence
           (sample_env_with (PStr "https://example.org/join")) sample_request
           [("allowed_user_member_groups", PList []);
            ("group_join_url", PStr "https://app.globus.org/join")]
           [] sample_world); reflexivity.
Defined.

(** C5: for an expired token, when the login-start route resolves and
    the response constructor accepts the URL, the redirect is the
    login-start path, then [?next=] and a value that decodes to exactly
    the full path of the request; the value holds no character that would
    end or split it. *)
Theorem expired_token_next_round_trip
        (env : Env) (request : Request) (w : World) (base : string) :
  let value := Urllib.quote_plus (full_path request) "" in
  urlconf env "social:begin" [("backend", "globus")] = Some base ->
  redirect_refused env (PStr (base +:+ "?next=" +:+ value)) = None ->
  fst (ExpiredTokenMiddleware.process_exception
         env request ExpiredGlobusToken w)
  = Ok (Some (HttpResponseRedirect (PStr (base +:+ "?next=" +:+ value))))
  /\ Urllib.unquote_plus value = full_path request
  /\ Urllib.no_delimiter value = true.
Proof.
  intros value Hroute Haccepted.
  rewrite ExpiredTokenFacts.expired_run, Hroute.
  split; [exact (redirect_outcome_accepted env _ Haccepted) |].
  split; [apply UrllibFacts.unquote_quote_plus
         | apply UrllibFacts.quote_plus_no_delimiter].
Qed.

Lemma expired_token_next_round_trip_witness :
  fst (ExpiredTokenMiddleware.process_exception
      sample_env sample_request ExpiredGlobusToken sample_world)
  = Ok (Some (HttpResponseRedirect
                (PStr "/login/globus/?next=%2Fcollections%2Fabc%3Fquery%3Dx")))
  /\ Urllib.unquote_plus "%2Fcollections%2Fabc%3Fquery%3Dx"
     = "/collections/abc?query=x".
Proof.
  destruct (expired_token_next_round_trip sample_env sample_request sample_world
              "/login/globus/" eq_refl eq_refl) as (Hurl & Hdecode & _).
  split; [exact Hurl | exact Hdecode].
Defined.

(** C6, refuted as worded: nothing is configured, the payload carries a
    [group_join_url] entry (the empty string), and there is no redirect. *)
Lemma empty_payload_url_not_followed :
  let kwargs := [("group_join_url", PStr "")] in
  (no_allowed_groups kwargs
   /\ settings sample_env !! join_url_setting = None
   /\ assoc "group_join_url" kwargs = Some (PStr "")
   /\ GlobusAuthExceptionMiddleware.process_exception
       sample_env sample_request (AuthForbidden [PDict kwargs])
        sample_world
      = (Ok None, warned sample_world))
  /\ ~ payload_url_always_followed.
Proof.
  split; [repeat split |].
  intros H.
  specialize (H sample_env sample_request [("group_join_url", PStr "")]
                sample_world (PStr "") eq_refl eq_refl eq_refl).
  discriminate H.
Qed.

(** C6, amended: with no eligible identity and no configured join URL
    (unset, or falsy), a payload [group_join_url] that is truthy (for a
    string: not empty) and that the response constructor accepts is the
    redirect target; nothing else changes. *)
Theorem payload_url_followed
        (env : Env) (request : Request) (kwargs : list (string * pyval))
        (rest : list pyval) (w : World) :
  no_allowed_groups kwargs ->
  py_truthy (getattr_settings env join_url_setting) = false ->
  py_truthy (dict_get kwargs "group_join_url") = true ->
  redirect_refused env (dict_get kwargs "group_join_url") = None ->
  GlobusAuthExceptionMiddleware.process_exception
      env request (AuthForbidden (PDict kwargs :: rest)) w
  = (Ok (Some (HttpResponseRedirect (dict_get kwargs "group_join_url"))), w).
Proof.
  intros Hnone Hunset Hurl Haccepted.
  rewrite GlobusAuthFacts.payload_run, Hnone.
  rewrite GlobusAuthFacts.join_from_payload by assumption.
  now rewrite redirect_outcome_accepted.
Qed.

Lemma payload_url_followed_witness :
  GlobusAuthExceptionMiddleware.process_exception
      sample_env sample_request
    (AuthForbidden [PDict [("group_join_url", PStr "https://app.globus.org/join")]])
    sample_world
  = (Ok (Some (HttpResponseRedirect (PStr "https://app.globus.org/join"))),
     sample_world).
Proof.
  apply (payload_url_followed sample_env sample_request
           [("group_join_url", PStr "https://app.globus.org/join")]
           [] sample_world); reflexivity.
Defined.

(** C7: with no eligible identity, the setting absent and no
    [group_join_url] entry in the payload, there is no decision and the
    log gains exactly one record, a warning; user and session stay. *)
Theorem no_join_url_warns_once
        (env : Env) (request : Request) (kwargs : list (string * pyval))
        (rest : list pyval) (w : World) :
  no_allowed_groups kwargs ->
  settings env !! join_url_setting = None ->
  assoc "group_join_url" kwargs = None ->
  let out := GlobusAuthExceptionMiddleware.process_exception
      env request (AuthForbidden (PDict kwargs :: rest)) w in
  fst out = Ok None
  /\ logs (snd out)
     = logs w ++ [(WARNING, GlobusAuthExceptionMiddleware.warning_message)]
  /\ session (snd out) = session w
  /\ user (snd out) = user w.
Proof.
  intros Hnone Hunset Habsent.
  rewrite GlobusAuthFacts.payload_run, Hnone.
  rewrite GlobusAuthFacts.join_nowhere; [repeat split | |].
  - unfold getattr_settings. now rewrite Hunset.
  - unfold dict_get. now rewrite Habsent.
Qed.

Lemma no_join_url_warns_once_witness :
  let out := GlobusAuthExceptionMiddleware.process_exception
      sample_env sample_request (AuthForbidden [PDict []])
               sample_world in
  fst out = Ok None
  /\ logs (snd out) = [(WARNING, GlobusAuthExceptionMiddleware.warning_message)]
  /\ session (snd out) = session sample_world
  /\ user (snd out) = Some "carol".
Proof.
  apply (no_join_url_warns_once sample_env sample_request [] [] sample_world);
    reflexivity.
Defined.

(** C8: an exception that is not an expired token gets no decision from
    the expired-token middleware, and user, session and log are as before. *)
Theorem other_exceptions_untouched
        (env : Env) (request : Request) (exc : exception) (w : World) :
  exc <> ExpiredGlobusToken ->
  ExpiredTokenMiddleware.process_exception env request exc w = (Ok None, w).
Proof. intros H. now apply ExpiredTokenFacts.other_run. Qed.

Lemma other_exceptions_untouched_witness :
  ExpiredTokenMiddleware.process_exception sample_env sample_request
    (AuthForbidden [PDict [("allowed_user_member_groups", alice_and_bob)]])
    sample_world
  = (Ok None, sample_world).
Proof.
  apply (other_exceptions_untouched sample_env sample_request
           (AuthForbidden [PDict [("allowed_user_member_groups", alice_and_bob)]])
           sample_world).
  discriminate.
Defined.

(** C9: a second call on the same request, exception and configuration,
    made on the world the first call left with its session reset to any
    content, gives the same outcome as the first, hence the same redirect
    URL; this holds for both middleware. *)
Theorem handlers_deterministic
        (env : Env) (request : Request) (exc : exception) (w : World)
        (reset : gmap string pyval) :
  let first_expired := ExpiredTokenMiddleware.process_exception
      env request exc w in
  let first_group := GlobusAuthExceptionMiddleware.process_exception
      env request exc w in
  fst (ExpiredTokenMiddleware.process_exception
      env request exc (with_session reset (snd first_expired)))
  = fst first_expired
  /\ fst (GlobusAuthExceptionMiddleware.process_exception
      env request exc (with_session reset (snd first_group)))
     = fst first_group.
Proof.
  split.
  - apply ExpiredTokenFacts.expired_outcome_any_world.
  - apply GlobusAuthFacts.group_outcome_any_world.
Qed.

(** C10: the join URLs are tested by truthiness.  With no eligible
    identity and the setting configured as the empty string, the call
    does what it does with the setting removed, so the payload's
    [group_join_url] decides: one that is truthy and accepted by the
    response constructor is the redirect target, an empty-string one leads
    to the logged fallback; and in no case is the empty string the target
    of the redirect. *)
Theorem empty_join_url_counts_as_unset
        (env : Env) (request : Request) (kwargs : list (string * pyval))
        (rest : list pyval) (w : World) :
  no_allowed_groups kwargs ->
  let call e := GlobusAuthExceptionMiddleware.process_exception
                  e request (AuthForbidden (PDict kwargs :: rest)) w in
  (settings env !! join_url_setting = Some (PStr "") ->
   call env = call (without_setting join_url_setting env))
  /\ (settings env !! join_url_setting = Some (PStr "") ->
      py_truthy (dict_get kwargs "group_join_url") = true ->
      redirect_refused env (dict_get kwargs "group_join_url") = None ->
      call env
      = (Ok (Some (HttpResponseRedirect (dict_get kwargs "group_join_url"))), w))
  /\ (settings env !! join_url_setting = Some (PStr "") ->
      dict_get kwargs "group_join_url" = PStr "" ->
      call env = (Ok None, warned w))
  /\ fst (call env) <> Ok (Some (HttpResponseRedirect (PStr ""))).
Proof.
  intros Hnone call. subst call. cbv beta.
  rewrite !GlobusAuthFacts.payload_run, Hnone.
  assert (Hempty : settings env !! join_url_setting = Some (PStr "") ->
                   py_truthy (getattr_settings env join_url_setting) = false)
    by (intros H; unfold getattr_settings; now rewrite H).
  assert (Hgone : py_truthy (getattr_settings
                               (without_setting join_url_setting env)
                               join_url_setting) = false)
    by (unfold getattr_settings, without_setting; simpl;
        now rewrite lookup_delete_eq).
  split; [| split; [| split]].
  - intros Hset. specialize (Hempty Hset).
    destruct (py_truthy (dict_get kwargs "group_join_url")) eqn:Hurl.
    + now rewrite !GlobusAuthFacts.join_from_payload.
    + now rewrite !GlobusAuthFacts.join_nowhere.
  - intros Hset Hurl Haccepted.
    rewrite GlobusAuthFacts.join_from_payload by auto.
    now rewrite redirect_outcome_accepted.
  - intros Hset Hurl. apply GlobusAuthFacts.join_nowhere; [auto |].
    now rewrite Hurl.
  - intros Hredirect.
    apply GlobusAuthFacts.join_target_truthy in Hredirect. discriminate Hredirect.
Qed.

Lemma empty_join_url_counts_as_unset_witness :
  GlobusAuthExceptionMiddleware.process_exception
      (sample_env_with (PStr "")) sample_request
    (AuthForbidden [PDict [("group_join_url", PStr "https://app.globus.org/join")]])
    sample_world
  = (Ok (Some (HttpResponseRedirect (PStr "https://app.globus.org/join"))),
     sample_world)
  /\ GlobusAuthExceptionMiddleware.process_exception
      (sample_env_with (PStr "")) sample_request
       (AuthForbidden [PDict [("group_join_url", PStr "")]]) sample_world
     = (Ok None, warned sample_world).
Proof.
  split.
  - apply (empty_join_url_counts_as_unset (sample_env_with (PStr "")) sample_request
             [("group_join_url", PStr "https://app.globus.org/join")] []
             sample_world); reflexivity.
  - apply (empty_join_url_counts_as_unset (sample_env_with (PStr "")) sample_request
             [("group_join_url", PStr "")] [] sample_world); reflexivity.
Defined.

(** * Further properties *)

(** ** Helper facts *)

Module MoreFacts.
Import GlobusAuthExceptionMiddleware.

Lemma append_inj_l (a b c : string) : a +:+ b = a +:+ c -> b = c.
Proof.
  induction a as [|x a IH]; rewrite ?append_cons, ?append_empty_l;
    [trivial | intros [= H]; auto].
Qed.

Lemma all_chars_app (p : ascii -> bool) (a b : string) :
  all_chars p (a +:+ b) = all_chars p a && all_chars p b.
Proof.
  induction a as [|x a IH]; str_simpl; [reflexivity |].
  now rewrite IH, andb_assoc.
Qed.

Lemma length_append (a b : string) :
  String.length (a +:+ b) = String.length a + String.length b.
Proof.
  induction a as [|x a IH]; str_simpl; [reflexivity | now rewrite IH].
Qed.

Lemma plus_byte_url_char (c : ascii) :
  all_chars url_char (Urllib.plus_byte c) = true.
Proof. UrllibFacts.each_byte c; reflexivity. Qed.

Lemma plus_byte_safe (c : ascii) :
  Urllib.always_safe c = true -> Urllib.plus_byte c = String c "".
Proof. intros H. unfold Urllib.plus_byte. now rewrite H. Qed.

Lemma plus_byte_length (c : ascii) :
  1 <= String.length (Urllib.plus_byte c) <= 3.
Proof. UrllibFacts.each_byte c; simpl; lia. Qed.

(** A template without braces formats to itself. *)
Lemma format_plain (t : string) (args : list pyval) :
  all_chars not_brace t = true -> py_format t args = Ok t.
Proof.
  induction t as [|c t IH]; [reflexivity |].
  simpl all_chars. intros H. apply andb_true_iff in H as [Hc Ht].
  unfold not_brace in Hc. apply negb_true_iff, orb_false_elim in Hc as [H1 H2].
  simpl py_format. rewrite H1, H2, (IH Ht). reflexivity.
Qed.

(** *** Splitting what was joined *)

Lemma split_no_sep (sep : ascii) (s : string) :
  mem_char sep s = false -> py_split sep s = [s].
Proof.
  induction s as [|c s IH]; [reflexivity |].
  intros H. change (Ascii.eqb sep c || mem_char sep s = false) in H.
  apply orb_false_elim in H as [Hc Hs].
  simpl py_split. rewrite Ascii.eqb_sym, Hc, (IH Hs). reflexivity.
Qed.

Lemma split_piece (sep : ascii) (s t : string) :
  mem_char sep s = false ->
  py_split sep (s +:+ String sep t) = s :: py_split sep t.
Proof.
  induction s as [|c s IH]; intros H.
  - rewrite append_empty_l. simpl py_split. now rewrite Ascii.eqb_refl.
  - change (Ascii.eqb sep c || mem_char sep s = false) in H.
    apply orb_false_elim in H as [Hc Hs].
    rewrite append_cons. simpl py_split.
    rewrite Ascii.eqb_sym, Hc, (IH Hs). reflexivity.
Qed.

Lemma split_join (l : list string) :
  l <> [] ->
  Forall (fun s => mem_char "," s = false) l ->
  py_split "," (join_str "," l) = l.
Proof.
  induction l as [|s l IH]; [congruence |].
  intros _ Hfree. inversion Hfree as [|? ? Hs Hl]; subst.
  destruct l as [|t l].
  - simpl join_str. now apply split_no_sep.
  - change (join_str "," (s :: t :: l))
      with (s +:+ String "," (join_str "," (t :: l))).
    rewrite (split_piece _ _ _ Hs), IH; [reflexivity | discriminate | exact Hl].
Qed.

End MoreFacts.

Module GroupAuthEdges.
Import GlobusAuthExceptionMiddleware.

Lemma comprehension_missing_key (key : string) (gs : list pyval) :
  Forall (fun g => is_dict g = true) gs ->
  Exists (fun g => has_key key g = false) gs ->
  comprehension (fun g => py_getitem g key) gs = Raise (KeyError key).
Proof.
  induction gs as [|g gs IH]; intros Hdict Hmiss.
  - inversion Hmiss.
  - inversion Hdict as [|? ? Hg Hgs]; subst.
    destruct g as [| | | | | |d]; try discriminate Hg.
    simpl comprehension. simpl py_getitem.
    destruct (assoc key d) as [v|] eqn:E; [| reflexivity].
    inversion Hmiss as [? ? Hhere|? ? Hlater]; subst.
    + simpl in Hhere. rewrite E in Hhere. discriminate Hhere.
    + simpl rbind. now rewrite (IH Hgs Hlater).
Qed.

Lemma comprehension_all_keys (key : string) (gs : list pyval) :
  Forall (fun g => has_key key g = true) gs ->
  exists vs, comprehension (fun g => py_getitem g key) gs = Ok vs.
Proof.
  induction gs as [|g gs IH]; intros Hall.
  - now exists [].
  - inversion Hall as [|? ? Hg Hgs]; subst.
    destruct (IH Hgs) as [vs Hvs].
    destruct g as [| | | | | |d]; try discriminate Hg.
    simpl in Hg. simpl comprehension. simpl py_getitem.
    destruct (assoc key d) as [v|]; [| discriminate Hg].
    exists (v :: vs). simpl rbind. now rewrite Hvs.
Qed.

Lemma comprehension_identities (gs : list pyval) (ids : list string) :
  Forall2 has_identity gs ids ->
  comprehension (fun g => py_getitem g "identity_id") gs = Ok (map PStr ids).
Proof.
  induction 1 as [|g i gs ids Hg _ IH]; [reflexivity |].
  simpl comprehension. unfold has_identity in Hg. now rewrite Hg, IH.
Qed.

Lemma identities_not_nil (gs : list pyval) (ids : list string) :
  Forall2 has_identity gs ids -> gs <> [] -> ids <> [].
Proof. intros H Hne. destruct H; [congruence | discriminate]. Qed.

Lemma join_non_str (sep : string) (l : list pyval) :
  Exists (fun v => is_str v = false) l -> py_join sep l = Raise TypeError.
Proof.
  induction l as [|v l IH]; intros H; [inversion H |].
  destruct v as [| | |s| | |]; try reflexivity.
  inversion H as [? ? Hhere|? ? Hlater]; subst; [discriminate Hhere |].
  destruct l as [|v' l]; [inversion Hlater |].
  change (py_join sep (PStr s :: v' :: l))
    with (rbind (py_join sep (v' :: l)) (fun t => Ok (s +:+ sep +:+ t))).
  now rewrite (IH Hlater).
Qed.

Lemma comprehension_non_str (gs : list pyval) :
  Forall (fun g => has_key "identity_id" g = true) gs ->
  Exists (fun g => id_is_str g = false) gs ->
  exists ids,
    comprehension (fun g => py_getitem g "identity_id") gs = Ok ids
    /\ Exists (fun v => is_str v = false) ids.
Proof.
  induction gs as [|g gs IH]; intros Hkeys Hbad; [inversion Hbad |].
  inversion Hkeys as [|? ? Hg Hgs]; subst.
  destruct (comprehension_all_keys _ _ Hgs) as [vs Hvs].
  destruct g as [| | | | | |d]; try discriminate Hg.
  simpl in Hg. simpl comprehension. simpl py_getitem.
  destruct (assoc "identity_id" d) as [v|] eqn:E; [| discriminate Hg].
  simpl rbind. rewrite Hvs. exists (v :: vs). split; [reflexivity |].
  inversion Hbad as [? ? Hhere|? ? Hlater]; subst.
  - apply Exists_cons_hd. simpl in Hhere. rewrite E in Hhere.
    now destruct v.
  - apply Exists_cons_tl.
    destruct (IH Hgs Hlater) as (ids & Hids & Hex).
    rewrite Hvs in Hids. now injection Hids as ->.
Qed.

Lemma login_non_sequence (env : Env) (allowed : pyval) (w : World) :
  py_truthy allowed = true ->
  is_sequence allowed = false ->
  redirect_to_login env allowed w = (Raise TypeError, w).
Proof.
  intros Htrue Hseq.
  destruct allowed as [|b|z|s|l|l|d]; try discriminate Hseq;
    try discriminate Htrue; try reflexivity.
  - destruct s as [|c s]; [discriminate Htrue | reflexivity].
  - destruct d as [|[k v] d]; [discriminate Htrue | reflexivity].
Qed.

Lemma same_but_offer_refl (w : World) : same_but_offer w w.
Proof. repeat split. Qed.

Lemma login_frame (env : Env) (allowed : pyval) (w : World) :
  same_but_offer w (snd (redirect_to_login env allowed w)).
Proof.
  unfold redirect_to_login, bind, lift, session_set, login_start, reverse, ret,
    http_response_redirect.
  destruct (py_iter allowed) as [gs|]; [| apply same_but_offer_refl].
  destruct (comprehension (fun g => py_getitem g "identity_id") gs) as [ids|];
    [| apply same_but_offer_refl].
  destruct (comprehension (fun g => py_getitem g "username") gs) as [us|];
    [| apply same_but_offer_refl].
  rewrite format_session_message.
  destruct (py_join "," ids) as [joined|]; unfold lift.
  - destruct (urlconf env "social:begin" [("backend", "globus")]) as [base|];
      [destruct (redirect_refused env (PStr base)) |];
      (repeat split; simpl; intros k H1 H2;
       rewrite !lookup_insert_ne by congruence; reflexivity).
  - repeat split; simpl; intros k H1 H2.
    rewrite lookup_insert_ne by congruence; reflexivity.
Qed.

Lemma bind_pass (m : M (option response)) (w : World) :
  bind m (fun r => match r with Some _ => ret r | None => ret None end) w = m w.
Proof.
  unfold bind. destruct (m w) as [[[r|]|e] w']; reflexivity.
Qed.

End GroupAuthEdges.

(** ** GlobusAuthExceptionMiddleware, beyond the claims *)

(** X1: an exception that is not an [AuthForbidden] gets no decision from
    the group-auth middleware, and user, session and log are as before. *)
Theorem group_auth_ignores_other_exceptions
        (env : Env) (request : Request) (exc : exception) (w : World) :
  is_auth_forbidden exc = false ->
  GlobusAuthExceptionMiddleware.process_exception env request exc w
  = (Ok None, w).
Proof. intros H. destruct exc; [reflexivity | discriminate H | reflexivity]. Qed.

Lemma group_auth_ignores_other_exceptions_witness :
  GlobusAuthExceptionMiddleware.process_exception
    sample_env sample_request ExpiredGlobusToken sample_world
  = (Ok None, sample_world).
Proof.
  apply (group_auth_ignores_other_exceptions
           sample_env sample_request ExpiredGlobusToken sample_world).
  reflexivity.
Defined.

(** X2: an [AuthForbidden] whose first argument is not a dict (a message
    string, a list, [None]) gets no decision, whatever follows it in
    [args], and nothing is written or logged. *)
Theorem non_mapping_payload_declined
        (env : Env) (request : Request) (first : pyval) (rest : list pyval)
        (w : World) :
  is_dict first = false ->
  GlobusAuthExceptionMiddleware.process_exception
    env request (AuthForbidden (first :: rest)) w
  = (Ok None, w).
Proof. intros H. now apply GlobusAuthFacts.not_mapping_run. Qed.

Lemma non_mapping_payload_declined_witness :
  GlobusAuthExceptionMiddleware.process_exception
    sample_env sample_request
    (AuthForbidden [PStr "Your credentials aren't allowed"; PDict []])
    sample_world
  = (Ok None, sample_world).
Proof.
  apply (non_mapping_payload_declined sample_env sample_request
           (PStr "Your credentials aren't allowed") [PDict []] sample_world).
  reflexivity.
Defined.

(** X3: for any non-empty list of identity records, each a dict with a
    string [identity_id] and a [username] (whatever else it holds), the
    login branch stores the bare message template and the comma-joined
    identity ids in the session, leaves user and log alone and redirects
    to the login-start route, whatever join URL is configured or carried
    by the payload. *)
Theorem eligible_identities_offered
        (env : Env) (request : Request) (kwargs : list (string * pyval))
        (rest : list pyval) (w : World) (gs : list pyval) (ids : list string)
        (base : string) :
  dict_get kwargs "allowed_user_member_groups" = PList gs ->
  gs <> [] ->
  Forall2 has_identity gs ids ->
  Forall (fun g => has_key "username" g = true) gs ->
  urlconf env "social:begin" [("backend", "globus")] = Some base ->
  GlobusAuthExceptionMiddleware.process_exception
    env request (AuthForbidden (PDict kwargs :: rest)) w
  = (Ok (Some (HttpResponseRedirect (PStr base))),
     mkWorld (user w)
       (<["session_required_identities" := PStr (join_str "," ids)]>
          (<["session_message" :=
               PStr GlobusAuthExceptionMiddleware.session_message_template]>
             (session w)))
       (logs w)).
Proof.
  intros Hpayload Hne Hids Hnames Hroute.
  rewrite GlobusAuthFacts.payload_run, Hpayload.
  destruct gs as [|g gs]; [congruence |].
  simpl py_truthy. cbv iota.
  destruct (GroupAuthEdges.comprehension_all_keys _ _ Hnames) as [us Hus].
  rewrite (GlobusAuthFacts.login_steps env (PList (g :: gs)) (g :: gs) us ids w
             eq_refl
             (GroupAuthEdges.comprehension_identities _ _ Hids) Hus).
  now rewrite Hroute.
Qed.

Lemma eligible_identities_offered_witness :
  GlobusAuthExceptionMiddleware.process_exception
    (sample_env_with (PStr "https://example.org/join")) sample_request
    (AuthForbidden
       [PDict [("group_join_url", PStr "https://app.globus.org/join");
               ("allowed_user_member_groups",
                PList [PDict [("username", PStr "alice");
                              ("identity_id", PStr "id1");
                              ("status", PStr "used")];
                       PDict [("identity_id", PStr "id2");
                              ("username", PNone)]])]])
    sample_world
  = (Ok (Some (HttpResponseRedirect (PStr "/login/globus/"))),
     mkWorld (Some "carol")
       (<["session_required_identities" := PStr "id1,id2"]>
          (<["session_message" :=
               PStr GlobusAuthExceptionMiddleware.session_message_template]>
             {[ "csrf" := PStr "token" ]}))
       []).
Proof.
  apply (eligible_identities_offered
           (sample_env_with (PStr "https://example.org/join")) sample_request
           [("group_join_url", PStr "https://app.globus.org/join");
            ("allowed_user_member_groups",
             PList [PDict [("username", PStr "alice");
                           ("identity_id", PStr "id1");
                           ("status", PStr "used")];
                    PDict [("identity_id", PStr "id2");
                           ("username", PNone)]])]
           [] sample_world
           [PDict [("username", PStr "alice"); ("identity_id", PStr "id1");
                   ("status", PStr "used")];
            PDict [("identity_id", PStr "id2"); ("username", PNone)]]
           ["id1"; "id2"] "/login/globus/").
  - reflexivity.
  - discriminate.
  - repeat constructor.
  - repeat constructor.
  - reflexivity.
Defined.

(** X4: when the login-start route does not resolve, the login branch
    raises [NoReverseMatch] after both session entries were written: the
    writes stay.  The records are as in X3: dicts with a string
    [identity_id] and a [username], whatever else they hold. *)
Theorem login_without_route_keeps_writes
        (env : Env) (request : Request) (kwargs : list (string * pyval))
        (rest : list pyval) (w : World) (gs : list pyval) (ids : list string) :
  dict_get kwargs "allowed_user_member_groups" = PList gs ->
  gs <> [] ->
  Forall2 has_identity gs ids ->
  Forall (fun g => has_key "username" g = true) gs ->
  urlconf env "social:begin" [("backend", "globus")] = None ->
  GlobusAuthExceptionMiddleware.process_exception
    env request (AuthForbidden (PDict kwargs :: rest)) w
  = (Raise NoReverseMatch,
     mkWorld (user w)
       (<["session_required_identities" := PStr (join_str "," ids)]>
          (<["session_message" :=
               PStr GlobusAuthExceptionMiddleware.session_message_template]>
             (session w)))
       (logs w)).
Proof.
  intros Hpayload Hne Hids Hnames Hroute.
  rewrite GlobusAuthFacts.payload_run, Hpayload.
  destruct gs as [|g gs]; [congruence |].
  simpl py_truthy. cbv iota.
  destruct (GroupAuthEdges.comprehension_all_keys _ _ Hnames) as [us Hus].
  rewrite (GlobusAuthFacts.login_steps env (PList (g :: gs)) (g :: gs) us ids w
             eq_refl
             (GroupAuthEdges.comprehension_identities _ _ Hids) Hus).
  now rewrite Hroute.
Qed.

Lemma login_without_route_keeps_writes_witness :
  let out := GlobusAuthExceptionMiddleware.process_exception
               no_routes_env sample_request
               (AuthForbidden
                  [PDict [("allowed_user_member_groups",
                           PList [PDict [("username", PStr "alice");
                                         ("identity_id", PStr "id1")]])]])
               sample_world in
  fst out = Raise NoReverseMatch
  /\ session (snd out) !! "session_required_identities" = Some (PStr "id1").
Proof.
  rewrite (login_without_route_keeps_writes
             no_routes_env sample_request
             [("allowed_user_member_groups",
               PList [PDict [("username", PStr "alice");
                             ("identity_id", PStr "id1")]])]
             [] sample_world
             [PDict [("username", PStr "alice"); ("identity_id", PStr "id1")]]
             ["id1"]).
  - split; reflexivity.
  - reflexivity.
  - discriminate.
  - repeat constructor.
  - repeat constructor.
  - reflexivity.
Defined.

(** X5: whatever the exception, the configuration and the payload, and
    whether the call returns or raises, the group-auth middleware never
    changes the user, writes no session key other than [session_message]
    and [session_required_identities], and adds to the log nothing, or its
    one warning. *)
Theorem group_auth_frame
        (env : Env) (request : Request) (exc : exception) (w : World) :
  let after :=
    snd (GlobusAuthExceptionMiddleware.process_exception env request exc w) in
  user after = user w
  /\ (forall k : string,
        k <> "session_message" -> k <> "session_required_identities" ->
        session after !! k = session w !! k)
  /\ (logs after = logs w
      \/ logs after
         = logs w ++ [(WARNING, GlobusAuthExceptionMiddleware.warning_message)]).
Proof.
  destruct exc as [|args|args]; try (repeat split; now left).
  destruct args as [|first rest]; [repeat split; now left |].
  destruct first as [| | | | | |kwargs]; try (repeat split; now left).
  rewrite GlobusAuthFacts.payload_run.
  destruct (py_truthy (dict_get kwargs "allowed_user_member_groups")).
  - destruct (GroupAuthEdges.login_frame
                env (dict_get kwargs "allowed_user_member_groups") w)
      as (Hu & Hl & Hs).
    repeat split; [exact Hu | exact Hs | now left].
  - destruct (GlobusAuthFacts.join_cases env kwargs w)
      as [(target & _ & ->) | (_ & _ & ->)].
    + repeat split; now left.
    + repeat split; now right.
Qed.

(** X6: if every eligible-identity record is a dict and one of them has
    no [identity_id], the call raises [KeyError] for that key before
    anything is written: user, session and log are as before. *)
Theorem missing_identity_id_raises
        (env : Env) (request : Request) (kwargs : list (string * pyval))
        (rest : list pyval) (w : World) (gs : list pyval) :
  dict_get kwargs "allowed_user_member_groups" = PList gs ->
  Forall (fun g => is_dict g = true) gs ->
  Exists (fun g => has_key "identity_id" g = false) gs ->
  GlobusAuthExceptionMiddleware.process_exception
    env request (AuthForbidden (PDict kwargs :: rest)) w
  = (Raise (KeyError "identity_id"), w).
Proof.
  intros Hpayload Hdict Hmiss.
  rewrite GlobusAuthFacts.payload_run, Hpayload.
  destruct gs as [|g gs]; [inversion Hmiss |].
  simpl py_truthy. cbv iota.
  unfold GlobusAuthExceptionMiddleware.redirect_to_login, bind, lift, py_iter.
  now rewrite (GroupAuthEdges.comprehension_missing_key _ _ Hdict Hmiss).
Qed.

Lemma missing_identity_id_raises_witness :
  GlobusAuthExceptionMiddleware.process_exception
    sample_env sample_request
    (AuthForbidden
       [PDict [("allowed_user_member_groups",
                PList [record ("id1", "alice");
                       PDict [("username", PStr "bob")]])]])
    sample_world
  = (Raise (KeyError "identity_id"), sample_world).
Proof.
  apply (missing_identity_id_raises sample_env sample_request
           [("allowed_user_member_groups",
             PList [record ("id1", "alice"); PDict [("username", PStr "bob")]])]
           [] sample_world
           [record ("id1", "alice"); PDict [("username", PStr "bob")]]).
  - reflexivity.
  - repeat constructor.
  - apply Exists_cons_tl, Exists_cons_hd. reflexivity.
Defined.

(** X7: if every eligible-identity record has an [identity_id] and one of
    them has no [username], the call raises [KeyError] for [username],
    again before anything is written. *)
Theorem missing_username_raises
        (env : Env) (request : Request) (kwargs : list (string * pyval))
        (rest : list pyval) (w : World) (gs : list pyval) :
  dict_get kwargs "allowed_user_member_groups" = PList gs ->
  Forall (fun g => has_key "identity_id" g = true) gs ->
  Exists (fun g => has_key "username" g = false) gs ->
  GlobusAuthExceptionMiddleware.process_exception
    env request (AuthForbidden (PDict kwargs :: rest)) w
  = (Raise (KeyError "username"), w).
Proof.
  intros Hpayload Hids Hmiss.
  rewrite GlobusAuthFacts.payload_run, Hpayload.
  destruct gs as [|g gs]; [inversion Hmiss |].
  simpl py_truthy. cbv iota.
  unfold GlobusAuthExceptionMiddleware.redirect_to_login, bind, lift, py_iter.
  destruct (GroupAuthEdges.comprehension_all_keys _ _ Hids) as [ids ->].
  rewrite GroupAuthEdges.comprehension_missing_key; [reflexivity | | exact Hmiss].
  eapply Forall_impl; [exact Hids |].
  intros [| | | | | |d] H; [discriminate H.. | reflexivity].
Qed.

Lemma missing_username_raises_witness :
  GlobusAuthExceptionMiddleware.process_exception
    sample_env sample_request
    (AuthForbidden
       [PDict [("allowed_user_member_groups",
                PList [PDict [("identity_id", PStr "id1")]])]])
    sample_world
  = (Raise (KeyError "username"), sample_world).
Proof.
  apply (missing_username_raises sample_env sample_request
           [("allowed_user_member_groups",
             PList [PDict [("identity_id", PStr "id1")]])]
           [] sample_world [PDict [("identity_id", PStr "id1")]]).
  - reflexivity.
  - repeat constructor.
  - apply Exists_cons_hd. reflexivity.
Defined.

(** X8: if every record is a dict with an [identity_id] and a [username]
    (whatever else it holds) and some [identity_id] is not a string,
    [','.join] raises [TypeError] after [session_message] was stored: the
    session keeps the message and gets no [session_required_identities]. *)
Theorem non_string_identity_id_half_written
        (env : Env) (request : Request) (kwargs : list (string * pyval))
        (rest : list pyval) (w : World) (gs : list pyval) :
  dict_get kwargs "allowed_user_member_groups" = PList gs ->
  Forall (fun g => has_key "identity_id" g = true) gs ->
  Forall (fun g => has_key "username" g = true) gs ->
  Exists (fun g => id_is_str g = false) gs ->
  GlobusAuthExceptionMiddleware.process_exception
    env request (AuthForbidden (PDict kwargs :: rest)) w
  = (Raise TypeError,
     mkWorld (user w)
       (<["session_message" :=
            PStr GlobusAuthExceptionMiddleware.session_message_template]>
          (session w))
       (logs w)).
Proof.
  intros Hpayload Hkeys Hnames Hbad.
  destruct (GroupAuthEdges.comprehension_non_str gs Hkeys Hbad)
    as (ids & Hids & Hnonstr).
  destruct (GroupAuthEdges.comprehension_all_keys _ _ Hnames) as [us Hus].
  rewrite GlobusAuthFacts.payload_run, Hpayload.
  destruct gs as [|g gs]; [inversion Hbad |].
  simpl py_truthy. cbv iota.
  unfold GlobusAuthExceptionMiddleware.redirect_to_login,
    bind at 1 2 3 4 5 6, lift, py_iter.
  rewrite Hids, Hus, format_session_message.
  unfold session_set.
  now rewrite (GroupAuthEdges.join_non_str _ _ Hnonstr).
Qed.

Lemma non_string_identity_id_half_written_witness :
  let out := GlobusAuthExceptionMiddleware.process_exception
               sample_env sample_request
               (AuthForbidden
                  [PDict [("allowed_user_member_groups",
                           PList [PDict [("username", PStr "alice");
                                         ("identity_id", PInt 7);
                                         ("status", PStr "used")]])]])
               sample_world in
  fst out = Raise TypeError
  /\ session (snd out) !! "session_message"
     = Some (PStr GlobusAuthExceptionMiddleware.session_message_template)
  /\ session (snd out) !! "session_required_identities" = None.
Proof.
  rewrite (non_string_identity_id_half_written sample_env sample_request
             [("allowed_user_member_groups",
               PList [PDict [("username", PStr "alice");
                             ("identity_id", PInt 7);
                             ("status", PStr "used")]])]
             [] sample_world
             [PDict [("username", PStr "alice"); ("identity_id", PInt 7);
                     ("status", PStr "used")]]).
  - repeat split; reflexivity.
  - reflexivity.
  - repeat constructor.
  - repeat constructor.
  - apply Exists_cons_hd. reflexivity.
Defined.

(** X9: an [allowed_user_member_groups] that is truthy but neither a list
    nor a tuple (a number, [True], a non-empty string, a single record
    passed as a dict) makes the call raise [TypeError], with nothing
    written or logged. *)
Theorem non_sequence_groups_raise
        (env : Env) (request : Request) (kwargs : list (string * pyval))
        (rest : list pyval) (w : World) :
  py_truthy (dict_get kwargs "allowed_user_member_groups") = true ->
  is_sequence (dict_get kwargs "allowed_user_member_groups") = false ->
  GlobusAuthExceptionMiddleware.process_exception
    env request (AuthForbidden (PDict kwargs :: rest)) w
  = (Raise TypeError, w).
Proof.
  intros Htrue Hseq.
  rewrite GlobusAuthFacts.payload_run, Htrue.
  now apply GroupAuthEdges.login_non_sequence.
Qed.

Lemma non_sequence_groups_raise_witness :
  GlobusAuthExceptionMiddleware.process_exception
    sample_env sample_request
    (AuthForbidden
       [PDict [("allowed_user_member_groups", record ("id1", "alice"))]])
    sample_world
  = (Raise TypeError, sample_world).
Proof.
  apply (non_sequence_groups_raise sample_env sample_request
           [("allowed_user_member_groups", record ("id1", "alice"))]
           [] sample_world); reflexivity.
Defined.

(** X10: with no eligible identity the middleware either hands a truthy
    target to the response constructor, returning its redirect or raising
    its exception with user, session and log untouched, or, only when both
    the configured and the payload join URL are falsy, gives no decision
    with the one warning logged. *)
Theorem join_branch_outcomes
        (env : Env) (request : Request) (kwargs : list (string * pyval))
        (rest : list pyval) (w : World) :
  no_allowed_groups kwargs ->
  let out := GlobusAuthExceptionMiddleware.process_exception
               env request (AuthForbidden (PDict kwargs :: rest)) w in
  (exists target,
      py_truthy target = true
      /\ out = (match redirect_refused env target with
                | Some e => Raise e
                | None => Ok (Some (HttpResponseRedirect target))
                end, w))
  \/ (py_truthy (getattr_settings env join_url_setting) = false
      /\ py_truthy (dict_get kwargs "group_join_url") = false
      /\ out = (Ok None, warned w)).
Proof.
  intros Hnone out. subst out.
  rewrite GlobusAuthFacts.payload_run, Hnone.
  apply GlobusAuthFacts.join_cases.
Qed.

Lemma join_branch_outcomes_witness :
  (exists target,
      py_truthy target = true
      /\ GlobusAuthExceptionMiddleware.process_exception
           sample_env sample_request
           (AuthForbidden [PDict [("group_join_url", PStr "mailto:a@b.org")]])
           sample_world
         = (match redirect_refused sample_env target with
            | Some e => Raise e
            | None => Ok (Some (HttpResponseRedirect target))
            end, sample_world))
  \/ (py_truthy (getattr_settings sample_env join_url_setting) = false
      /\ py_truthy (dict_get [("group_join_url", PStr "mailto:a@b.org")]
                             "group_join_url") = false
      /\ GlobusAuthExceptionMiddleware.process_exception
           sample_env sample_request
           (AuthForbidden [PDict [("group_join_url", PStr "mailto:a@b.org")]])
           sample_world
         = (Ok None, warned sample_world)).
Proof.
  apply (join_branch_outcomes sample_env sample_request
           [("group_join_url", PStr "mailto:a@b.org")] [] sample_world).
  reflexivity.
Defined.

(** X11: for identity records as in X3, when no identity id contains a
    comma, the stored [session_required_identities] string splits at the
    commas into exactly the identity ids of the payload, in order. *)
Theorem required_identities_split_back
        (env : Env) (request : Request) (kwargs : list (string * pyval))
        (rest : list pyval) (w : World) (gs : list pyval) (ids : list string) :
  dict_get kwargs "allowed_user_member_groups" = PList gs ->
  gs <> [] ->
  Forall2 has_identity gs ids ->
  Forall (fun g => has_key "username" g = true) gs ->
  Forall (fun i => mem_char "," i = false) ids ->
  let after := snd (GlobusAuthExceptionMiddleware.process_exception
                      env request (AuthForbidden (PDict kwargs :: rest)) w) in
  exists s,
    session after !! "session_required_identities" = Some (PStr s)
    /\ py_split "," s = ids.
Proof.
  intros Hpayload Hne Hids Hnames Hfree after. subst after.
  exists (join_str "," ids). split.
  - rewrite GlobusAuthFacts.payload_run, Hpayload.
    destruct gs as [|g gs]; [congruence |].
    simpl py_truthy. cbv iota.
    destruct (GroupAuthEdges.comprehension_all_keys _ _ Hnames) as [us Hus].
    rewrite (GlobusAuthFacts.login_steps env (PList (g :: gs)) (g :: gs) us ids w
             eq_refl
               (GroupAuthEdges.comprehension_identities _ _ Hids) Hus).
    destruct (urlconf env "social:begin" [("backend", "globus")]);
      apply lookup_insert_eq.
  - apply MoreFacts.split_join; [| exact Hfree].
    exact (GroupAuthEdges.identities_not_nil _ _ Hids Hne).
Qed.

Lemma required_identities_split_back_witness :
  exists s,
    session (snd (GlobusAuthExceptionMiddleware.process_exception
                    sample_env sample_request
                    (AuthForbidden
                       [PDict [("allowed_user_member_groups", alice_and_bob)]])
                    sample_world))
      !! "session_required_identities" = Some (PStr s)
    /\ py_split "," s = ["id1"; "id2"].
Proof.
  apply (required_identities_split_back sample_env sample_request
           [("allowed_user_member_groups", alice_and_bob)] [] sample_world
           [record ("id1", "alice"); record ("id2", "bob")] ["id1"; "id2"]).
  - reflexivity.
  - discriminate.
  - repeat constructor.
  - repeat constructor.
  - repeat constructor.
Defined.

(** X12: a template without braces formats to itself whatever arguments
    it is given, which is why the usernames handed to the session message
    template leave no trace. *)
Theorem format_without_field_ignores_arguments
        (template : string) (args : list pyval) :
  all_chars not_brace template = true ->
  py_format template args = Ok template.
Proof. apply MoreFacts.format_plain. Qed.

Lemma format_without_field_ignores_arguments_witness :
  py_format GlobusAuthExceptionMiddleware.session_message_template
            [PList [PStr "alice"; PStr "bob"]]
  = Ok GlobusAuthExceptionMiddleware.session_message_template.
Proof.
  apply (format_without_field_ignores_arguments
           GlobusAuthExceptionMiddleware.session_message_template
           [PList [PStr "alice"; PStr "bob"]]).
  reflexivity.
Defined.

(** ** ExpiredTokenMiddleware, beyond the claims *)

(** X13: an expired token always ends the login: after the call the user
    is anonymous, the session is empty and the log has one more record, an
    INFO naming the user as of before the logout.  This holds whether or
    not the redirect could be built. *)
Theorem expired_token_logs_out
        (env : Env) (request : Request) (w : World) :
  let after := snd (ExpiredTokenMiddleware.process_exception
                      env request ExpiredGlobusToken w) in
  user after = None
  /\ session after = ∅
  /\ logs after
     = logs w ++ [(INFO, "Tokens expired for user "
                         +:+ default "AnonymousUser" (user w)
                         +:+ ", redirecting to login.")].
Proof.
  rewrite ExpiredTokenFacts.expired_run.
  destruct (urlconf env "social:begin" [("backend", "globus")]);
    repeat split.
Qed.

(** X14: when the login-start route does not resolve, the expired-token
    middleware raises [NoReverseMatch] instead of redirecting, and the
    user has been logged out all the same. *)
Theorem expired_token_without_route
        (env : Env) (request : Request) (w : World) :
  urlconf env "social:begin" [("backend", "globus")] = None ->
  ExpiredTokenMiddleware.process_exception env request ExpiredGlobusToken w
  = (Raise NoReverseMatch, logged_out w).
Proof. intros H. now rewrite ExpiredTokenFacts.expired_run, H. Qed.

Lemma expired_token_without_route_witness :
  let out := ExpiredTokenMiddleware.process_exception
               no_routes_env sample_request
               ExpiredGlobusToken sample_world in
  fst out = Raise NoReverseMatch /\ user (snd out) = None.
Proof.
  rewrite (expired_token_without_route
             no_routes_env sample_request sample_world);
    [split; reflexivity | reflexivity].
Defined.

(** X15: the redirect determines the path to return to: if the calls for
    two requests under the same URL configuration both return the same
    redirect, the full paths of the two requests are equal. *)
Theorem equal_redirects_equal_paths
        (env : Env) (r1 r2 : Request) (w1 w2 : World) (redirect : response) :
  fst (ExpiredTokenMiddleware.process_exception env r1 ExpiredGlobusToken w1)
  = Ok (Some redirect) ->
  fst (ExpiredTokenMiddleware.process_exception env r2 ExpiredGlobusToken w2)
  = Ok (Some redirect) ->
  full_path r1 = full_path r2.
Proof.
  rewrite !ExpiredTokenFacts.expired_run.
  destruct (urlconf env "social:begin" [("backend", "globus")]) as [base|];
    [| discriminate].
  simpl fst. intros H1 H2.
  apply redirect_outcome_target in H1, H2. rewrite H1 in H2.
  injection H2 as H. unfold login_url in H.
  do 3 apply MoreFacts.append_inj_l in H.
  rewrite <- (UrllibFacts.unquote_quote_plus (full_path r1)), H.
  apply UrllibFacts.unquote_quote_plus.
Qed.

Lemma equal_redirects_equal_paths_witness :
  full_path sample_request = full_path (mkRequest "/collections/abc?query=x").
Proof.
  apply (equal_redirects_equal_paths sample_env sample_request
           (mkRequest "/collections/abc?query=x") sample_world
           (mkWorld None ∅ [])
           (HttpResponseRedirect
              (PStr "/login/globus/?next=%2Fcollections%2Fabc%3Fquery%3Dx")));
    reflexivity.
Defined.

(** ** [quote_plus], beyond the claims *)

(** X16: [quote_plus] writes only unreserved characters, [%] and [+]. *)
Theorem quote_plus_alphabet (s : string) :
  all_chars url_char (Urllib.quote_plus s "") = true.
Proof.
  rewrite UrllibFacts.quote_plus_bytes.
  induction s as [|c s IH]; [reflexivity |].
  simpl Urllib.plus_bytes.
  now rewrite MoreFacts.all_chars_app, MoreFacts.plus_byte_url_char, IH.
Qed.

(** X17: a string of unreserved characters only is its own encoding. *)
Theorem quote_plus_keeps_unreserved (s : string) :
  all_chars Urllib.always_safe s = true ->
  Urllib.quote_plus s "" = s.
Proof.
  rewrite UrllibFacts.quote_plus_bytes.
  induction s as [|c s IH]; [reflexivity |].
  simpl all_chars. intros H. apply andb_true_iff in H as [Hc Hs].
  simpl Urllib.plus_bytes.
  now rewrite (MoreFacts.plus_byte_safe c Hc), (IH Hs).
Qed.

Lemma quote_plus_keeps_unreserved_witness :
  Urllib.quote_plus "collections-2024_v1.0~draft" ""
  = "collections-2024_v1.0~draft".
Proof.
  apply (quote_plus_keeps_unreserved "collections-2024_v1.0~draft").
  reflexivity.
Defined.

(** X18: the encoding is at least as long as the string and at most three
    times as long. *)
Theorem quote_plus_length (s : string) :
  String.length s <= String.length (Urllib.quote_plus s "")
  /\ String.length (Urllib.quote_plus s "") <= 3 * String.length s.
Proof.
  rewrite UrllibFacts.quote_plus_bytes.
  induction s as [|c s [IH1 IH2]]; [simpl; lia |].
  simpl Urllib.plus_bytes. rewrite MoreFacts.length_append.
  pose proof (MoreFacts.plus_byte_length c) as [H1 H3].
  simpl String.length. lia.
Qed.

(** ** The two middleware together *)

(** X19: the two middleware never act on the same exception: whatever the
    exception, one of them gives no decision and leaves user, session and
    log as they were. *)
Theorem middleware_act_on_disjoint_exceptions
        (env : Env) (request : Request) (exc : exception) (w : World) :
  ExpiredTokenMiddleware.process_exception env request exc w = (Ok None, w)
  \/ GlobusAuthExceptionMiddleware.process_exception env request exc w
     = (Ok None, w).
Proof. destruct exc; [right | left | left]; reflexivity. Qed.

(** X20: the order of the two middleware does not matter: passing an
    exception to one and, on no decision, to the other gives the same
    outcome and the same user, session and log in either order. *)
Theorem middleware_order_irrelevant
        (env : Env) (request : Request) (exc : exception) (w : World) :
  first_response
    (ExpiredTokenMiddleware.process_exception env request exc)
    (GlobusAuthExceptionMiddleware.process_exception env request exc) w
  = first_response
      (GlobusAuthExceptionMiddleware.process_exception env request exc)
      (ExpiredTokenMiddleware.process_exception env request exc) w.
Proof.
  unfold first_response.
  destruct exc as [|args|args]; try reflexivity.
  - change (GlobusAuthExceptionMiddleware.process_exception
              env request ExpiredGlobusToken) with (@ret (option response) None).
    now rewrite GroupAuthEdges.bind_pass.
  - change (ExpiredTokenMiddleware.process_exception
              env request (AuthForbidden args)) with (@ret (option response) None).
    now rewrite GroupAuthEdges.bind_pass.
Qed.
